(** * torchgeo datamodules: NonGeoDataModule, COWCCountingDataModule, So2SatDataModule

A shallow embedding of [torchgeo/datamodules/geo.py], [cowc.py] and
[so2sat.py].  A datamodule is a Python object whose methods read and
assign attributes of [self], may raise, and call the dataset class; each
method is therefore a computation in a small monad [Py.M] that threads the
attributes, stops at the first exception and records every dataset
constructor call it makes.  The collaborators that live outside the
repository (dataset classes, [DataLoader], [Subset], augmentation modules,
the trainer) are kept symbolic: a dataset is the constructor call that
made it, a loader is the record of the arguments handed to the factory. *)

From stdpp Require Import base option list strings gmap numbers.
From Stdlib Require Import QArith.

Open Scope Z_scope.

(** ** The fragment of Python the datamodules rely on *)
Module Py.

(** Exceptions raised in the modelled code. *)
Inductive exn :=
| MisconfigurationException (msg : string)
| UnboundLocalError (name : string)
| TypeError (msg : string)
| KeyError (key : string)
| ValueError (msg : string).

Inductive outcome (A : Type) :=
| Returned (a : A)
| Raised (e : exn).
Arguments Returned {A} a.
Arguments Raised {A} e.

Definition returns {A} (o : outcome A) : bool :=
  match o with Returned _ => true | Raised _ => false end.

(** Values that travel in a keyword bag ([**kwargs]). *)
Inductive value :=
| VNone
| VBool (b : bool)
| VInt (n : Z)
| VStr (s : string)
| VStrs (l : list string).

(** A call [callee(k1=v1, ..., **bag)], kept as written: the explicit
    keywords in order, then the forwarded bag. *)
Record call := Call {
  callee : string;
  keywords : list (string * value);
  star_kwargs : gmap string value
}.

(** A method body: reads and writes the attributes [St], returns or raises,
    and reports the constructor calls it made, in order.  Attributes
    assigned before an exception stay assigned. *)
Definition M (St A : Type) : Type := St → outcome A * St * list call.

Global Instance M_ret {St} : MRet (M St) :=
  λ A a s, (Returned a, s, []).

Global Instance M_bind {St} : MBind (M St) :=
  λ A B k m s,
    match m s with
    | (Returned a, s', l) =>
        match k a s' with (r, s'', l') => (r, s'', l ++ l') end
    | (Raised e, s', l) => (Raised e, s', l)
    end.

Definition get {St} : M St St := λ s, (Returned s, s, []).
Definition modify {St} (f : St → St) : M St unit := λ s, (Returned tt, f s, []).
Definition raise {St A} (e : exn) : M St A := λ s, (Raised e, s, []).
Definition lift {St A} (o : outcome A) : M St A := λ s, (o, s, []).
(** Calling a class: the call is recorded and handed back to the caller,
    who wraps it into the object it stands for. *)
Definition construct {St} (c : call) : M St call := λ s, (Returned c, s, [c]).

Definition result {St A} (m : M St A) (s : St) : outcome A := (m s).1.1.
Definition final {St A} (m : M St A) (s : St) : St := (m s).1.2.
Definition calls {St A} (m : M St A) (s : St) : list call := (m s).2.

(** Truth value testing ([bool(x)]). *)
Class Truthy (A : Type) := truthy : A → bool.
Global Instance int_truthy : Truthy Z := λ n, negb (n =? 0).
Global Instance bool_truthy : Truthy bool := λ b, b.
Global Instance option_truthy {A} `{Truthy A} : Truthy (option A) :=
  λ o, match o with Some a => truthy a | None => false end.
Global Instance value_truthy : Truthy value :=
  λ v, match v with
       | VNone => false
       | VBool b => b
       | VInt n => truthy n
       | VStr s => negb (String.eqb s "")
       | VStrs l => negb (bool_decide (l = []))
       end.

(** [x or y] for [x : Optional[A]] and [y : A]: [x] when it is truthy,
    else [y]. *)
Definition or {A} `{Truthy A} (x : option A) (y : A) : A :=
  match x with
  | Some a => if truthy a then a else y
  | None => y
  end.

(** [x in [k1, ..., kn]] for strings. *)
Definition in_ (x : string) (l : list string) : bool := bool_decide (x ∈ l).

(** Binding of a parameter without default: the call fails when the
    caller passed nothing for it. *)
Definition required {A} (fn name : string) (arg : option A) : outcome A :=
  match arg with
  | Some a => Returned a
  | None =>
      Raised (TypeError (fn +:+ "() missing 1 required positional argument: '"
                            +:+ name +:+ "'"))
  end.

(** Reading a local variable that no executed branch has assigned. *)
Definition local {St A} (name : string) (v : option A) : M St A :=
  match v with
  | Some a => mret a
  | None => raise (UnboundLocalError name)
  end.

(** [l[lo:hi]] with Python's treatment of negative and overlong bounds. *)
Definition clamp (n i : Z) : Z :=
  if i <? 0 then Z.max 0 (i + n) else Z.min i n.

Definition slice {A} (l : list A) (lo hi : Z) : list A :=
  let n := Z.of_nat (length l) in
  let a := clamp n lo in
  let b := clamp n hi in
  take (Z.to_nat (b - a)) (drop (Z.to_nat a) l).

End Py.

(** ** External collaborators (torch, kornia, pytorch_lightning) *)
Module torch.

(** A dataset object: either an instance of a dataset class, identified by
    the call that constructed it, or a [Subset] of another dataset. *)
Inductive Dataset :=
| Instance (c : Py.call)
| Subset (dataset : Dataset) (indices : list nat).

(** The arguments [DataLoader] is constructed with. *)
Record DataLoader := {
  dataset : Dataset;
  batch_size : Z;
  shuffle : bool;
  num_workers : Z
}.

(** The [mean] / [std] argument of [Normalize]: a number or a sequence. *)
Inductive stat :=
| scalar (q : Q)
| vector (l : list Q).

Definition stat_len (s : stat) : option nat :=
  match s with scalar _ => None | vector l => Some (length l) end.

(** Augmentation modules: the pipeline
    [AugmentationSequential(Normalize(mean, std), data_keys)] the
    datamodules build themselves, or any other module a user assigns. *)
Inductive Module :=
| AugmentationSequential (mean std : stat) (data_keys : list string)
| UserModule (id : nat).

(** [torch.nn.Module] defines neither [__bool__] nor [__len__]: an
    instance is truthy. *)
Global Instance Module_truthy : Py.Truthy Module := λ _, true.

(** What the datamodule reads of the attached trainer. *)
Record Trainer := {
  training : bool;
  validating : bool;
  testing : bool;
  predicting : bool
}.

Section lengths_and_splits.
(** [len] of a dataset instance is the dataset class's business; a
    [Subset] has as many samples as indices. *)
Context (instance_len : Py.call → nat).

Definition len (d : Dataset) : nat :=
  match d with
  | Instance c => instance_len c
  | Subset _ indices => length indices
  end.

(** The draw [randperm(n)] of the random generator. *)
Context (randperm : nat → list nat).

(** [itertools.accumulate]: running sums. *)
Fixpoint accumulate_from (acc : Z) (lengths : list Z) : list Z :=
  match lengths with
  | [] => []
  | x :: rest => (acc + x) :: accumulate_from (acc + x) rest
  end.
Definition accumulate (lengths : list Z) : list Z := accumulate_from 0 lengths.

(** Modelled from the spec: [torch.utils.data.random_split] is not part of
    the sources.  It is the "random partition" of the spec: it refuses
    lengths that do not add up to the dataset's length, draws a random
    order of the sample indices and cuts it into consecutive folds of the
    requested lengths, one [Subset] per fold. *)
Definition random_split (dataset : Dataset) (lengths : list Z)
    : Py.outcome (list Dataset) :=
  let total := foldr Z.add 0 lengths in
  if bool_decide (total = Z.of_nat (len dataset)) then
    let indices := randperm (Z.to_nat total) in
    Py.Returned
      (zip_with
         (λ offset length, Subset dataset (Py.slice indices (offset - length) offset))
         (accumulate lengths) lengths)
  else
    Py.Raised (Py.ValueError
      "Sum of input lengths does not equal the length of the input dataset!").
End lengths_and_splits.

End torch.

(** ** geo.py: the base class *)
Module NonGeoDataModule.
Import Py torch.

(** The attributes of an instance.  [class_name] stands for
    [self.__class__.__name__]; [trainer] is the attribute the Lightning
    base class keeps ([None] until a trainer attaches itself). *)
Record t := {
  class_name : string;
  dataset_class : string;
  batch_size : Z;
  num_workers : Z;
  kwargs : gmap string value;
  train_dataset : option Dataset;
  val_dataset : option Dataset;
  test_dataset : option Dataset;
  predict_dataset : option Dataset;
  train_batch_size : option Z;
  val_batch_size : option Z;
  test_batch_size : option Z;
  predict_batch_size : option Z;
  aug : Module;
  train_aug : option Module;
  val_aug : option Module;
  test_aug : option Module;
  predict_aug : option Module;
  trainer : option Trainer
}.

(** Attribute assignment [self.x = v], one function per assigned attribute. *)
Definition set_train_dataset (v : option Dataset) (s : t) : t :=
  {| class_name := class_name s; dataset_class := dataset_class s;
     batch_size := batch_size s; num_workers := num_workers s;
     kwargs := kwargs s;
     train_dataset := v; val_dataset := val_dataset s;
     test_dataset := test_dataset s; predict_dataset := predict_dataset s;
     train_batch_size := train_batch_size s;
     val_batch_size := val_batch_size s;
     test_batch_size := test_batch_size s;
     predict_batch_size := predict_batch_size s;
     aug := aug s; train_aug := train_aug s; val_aug := val_aug s;
     test_aug := test_aug s; predict_aug := predict_aug s;
     trainer := trainer s |}.

Definition set_val_dataset (v : option Dataset) (s : t) : t :=
  {| class_name := class_name s; dataset_class := dataset_class s;
     batch_size := batch_size s; num_workers := num_workers s;
     kwargs := kwargs s;
     train_dataset := train_dataset s; val_dataset := v;
     test_dataset := test_dataset s; predict_dataset := predict_dataset s;
     train_batch_size := train_batch_size s;
     val_batch_size := val_batch_size s;
     test_batch_size := test_batch_size s;
     predict_batch_size := predict_batch_size s;
     aug := aug s; train_aug := train_aug s; val_aug := val_aug s;
     test_aug := test_aug s; predict_aug := predict_aug s;
     trainer := trainer s |}.

Definition set_test_dataset (v : option Dataset) (s : t) : t :=
  {| class_name := class_name s; dataset_class := dataset_class s;
     batch_size := batch_size s; num_workers := num_workers s;
     kwargs := kwargs s;
     train_dataset := train_dataset s; val_dataset := val_dataset s;
     test_dataset := v; predict_dataset := predict_dataset s;
     train_batch_size := train_batch_size s;
     val_batch_size := val_batch_size s;
     test_batch_size := test_batch_size s;
     predict_batch_size := predict_batch_size s;
     aug := aug s; train_aug := train_aug s; val_aug := val_aug s;
     test_aug := test_aug s; predict_aug := predict_aug s;
     trainer := trainer s |}.

Definition set_aug (v : Module) (s : t) : t :=
  {| class_name := class_name s; dataset_class := dataset_class s;
     batch_size := batch_size s; num_workers := num_workers s;
     kwargs := kwargs s;
     train_dataset := train_dataset s; val_dataset := val_dataset s;
     test_dataset := test_dataset s; predict_dataset := predict_dataset s;
     train_batch_size := train_batch_size s;
     val_batch_size := val_batch_size s;
     test_batch_size := test_batch_size s;
     predict_batch_size := predict_batch_size s;
     aug := v; train_aug := train_aug s; val_aug := val_aug s;
     test_aug := test_aug s; predict_aug := predict_aug s;
     trainer := trainer s |}.

Definition set_loading (bs nw : Z) (kw : gmap string value) (s : t) : t :=
  {| class_name := class_name s; dataset_class := dataset_class s;
     batch_size := bs; num_workers := nw; kwargs := kw;
     train_dataset := train_dataset s; val_dataset := val_dataset s;
     test_dataset := test_dataset s; predict_dataset := predict_dataset s;
     train_batch_size := train_batch_size s;
     val_batch_size := val_batch_size s;
     test_batch_size := test_batch_size s;
     predict_batch_size := predict_batch_size s;
     aug := aug s; train_aug := train_aug s; val_aug := val_aug s;
     test_aug := test_aug s; predict_aug := predict_aug s;
     trainer := trainer s |}.

(** Class attributes [mean = torch.tensor(0)], [std = torch.tensor(255)]. *)
Definition mean : stat := scalar 0.
Definition std : stat := scalar 255.

(** [__init__(self, dataset_class, batch_size=1, num_workers=0, **kwargs)],
    run on a new object of class [cls].  An argument the caller leaves out
    is [None] here; [dataset_class] has no default. *)
Definition __init__ (cls : string) (dataset_class : option string)
    (batch_size num_workers : option Z) (kwargs : gmap string value)
    : outcome t :=
  match required "__init__" "dataset_class" dataset_class with
  | Raised e => Raised e
  | Returned dc =>
      Returned
        {| class_name := cls;
           dataset_class := dc;
           batch_size := default 1 batch_size;
           num_workers := default 0 num_workers;
           kwargs := kwargs;
           train_dataset := None; val_dataset := None;
           test_dataset := None; predict_dataset := None;
           train_batch_size := None; val_batch_size := None;
           test_batch_size := None; predict_batch_size := None;
           aug := AugmentationSequential mean std ["image"];
           train_aug := None; val_aug := None;
           test_aug := None; predict_aug := None;
           trainer := None |}
  end.

(** [prepare_data]: constructs (and drops) a dataset when the bag asks for
    a download. *)
Definition prepare_data : M t unit :=
  self ← get;
  if truthy (default (VBool false) (kwargs self !! "download")) then
    _ ← construct (Call (dataset_class self) [] (kwargs self)); mret tt
  else mret tt.

Definition setup (stage : string) : M t unit :=
  self ← get;
  if in_ stage ["fit"] then
    c ← construct (Call (dataset_class self) [("split", VStr "train")] (kwargs self));
    modify (set_train_dataset (Some (Instance c)))
  else if in_ stage ["fit"; "validate"] then
    c ← construct (Call (dataset_class self) [("split", VStr "val")] (kwargs self));
    modify (set_val_dataset (Some (Instance c)))
  else if in_ stage ["test"] then
    c ← construct (Call (dataset_class self) [("split", VStr "test")] (kwargs self));
    modify (set_test_dataset (Some (Instance c)))
  else mret tt.

Definition train_dataloader : M t DataLoader :=
  self ← get;
  match train_dataset self with
  | Some ds =>
      mret {| torch.dataset := ds;
              torch.batch_size := or (train_batch_size self) (batch_size self);
              torch.shuffle := true;
              torch.num_workers := num_workers self |}
  | None =>
      raise (MisconfigurationException
               (class_name self +:+ ".setup does not define a 'train_dataset'"))
  end.

Definition val_dataloader : M t DataLoader :=
  self ← get;
  match val_dataset self with
  | Some ds =>
      mret {| torch.dataset := ds;
              torch.batch_size := or (val_batch_size self) (batch_size self);
              torch.shuffle := false;
              torch.num_workers := num_workers self |}
  | None =>
      raise (MisconfigurationException
               (class_name self +:+ ".setup does not define a 'val_dataset'"))
  end.

Definition test_dataloader : M t DataLoader :=
  self ← get;
  match test_dataset self with
  | Some ds =>
      mret {| torch.dataset := ds;
              torch.batch_size := or (test_batch_size self) (batch_size self);
              torch.shuffle := false;
              torch.num_workers := num_workers self |}
  | None =>
      raise (MisconfigurationException
               (class_name self +:+ ".setup does not define a 'test_dataset'"))
  end.

Definition predict_dataloader : M t DataLoader :=
  self ← get;
  match predict_dataset self with
  | Some ds =>
      mret {| torch.dataset := ds;
              torch.batch_size := or (predict_batch_size self) (batch_size self);
              torch.shuffle := false;
              torch.num_workers := num_workers self |}
  | None =>
      raise (MisconfigurationException
               (class_name self +:+ ".setup does not define a 'predict_dataset'"))
  end.

Section batch_transfer.
(** Batches and the effect of calling a module on one are external. *)
Context {Batch : Type} (forward : Module → Batch → Batch).

Definition on_after_batch_transfer (batch : Batch) (dataloader_idx : Z)
    : M t Batch :=
  self ← get;
  match trainer self with
  | Some tr =>
      let aug :=
        if training tr then Some (or (train_aug self) (aug self))
        else if validating tr then Some (or (val_aug self) (aug self))
        else if testing tr then Some (or (test_aug self) (aug self))
        else if predicting tr then Some (or (predict_aug self) (aug self))
        else None in
      aug ← local "aug" aug;
      mret (forward aug batch)
  | None => mret batch
  end.
End batch_transfer.

Section plotting.
(** Whether a dataset object has a [plot] attribute, and what calling it
    with the forwarded arguments returns, are the dataset's business. *)
Context {Args Figure : Type}
  (has_plot : Dataset → bool) (plot_method : Dataset → Args → Figure).

(** [plot(self, *args, **kwargs)]; falling off the end returns [None]. *)
Definition plot (args : Args) : M t (option Figure) :=
  self ← get;
  match val_dataset self with
  | Some ds =>
      if has_plot ds then mret (Some (plot_method ds args))
      else mret None
  | None => mret None
  end.
End plotting.

(** The call [self.dataset_class(split=..., **self.kwargs)] of [setup]. *)
Definition constructed (self : t) (split : string) : call :=
  Call (dataset_class self) [("split", VStr split)] (kwargs self).

(** The four loaders and the attributes each one reads, indexed by stage. *)
Inductive loader_stage := Train | Val | Test | Predict.

Definition dataloader (S : loader_stage) : M t DataLoader :=
  match S with
  | Train => train_dataloader
  | Val => val_dataloader
  | Test => test_dataloader
  | Predict => predict_dataloader
  end.

Definition dataset_ref (S : loader_stage) (self : t) : option Dataset :=
  match S with
  | Train => train_dataset self
  | Val => val_dataset self
  | Test => test_dataset self
  | Predict => predict_dataset self
  end.

Definition batch_size_override (S : loader_stage) (self : t) : option Z :=
  match S with
  | Train => train_batch_size self
  | Val => val_batch_size self
  | Test => test_batch_size self
  | Predict => predict_batch_size self
  end.

Definition stage_aug (S : loader_stage) (self : t) : option Module :=
  match S with
  | Train => train_aug self
  | Val => val_aug self
  | Test => test_aug self
  | Predict => predict_aug self
  end.

Definition attr_name (S : loader_stage) : string :=
  match S with
  | Train => "train_dataset"
  | Val => "val_dataset"
  | Test => "test_dataset"
  | Predict => "predict_dataset"
  end.

(** The trainer's flag for a phase, and "the trainer reports phase [S]":
    that flag is up and no other is. *)
Definition flag (tr : Trainer) (S : loader_stage) : bool :=
  match S with
  | Train => training tr
  | Val => validating tr
  | Test => testing tr
  | Predict => predicting tr
  end.

Definition reports (tr : Trainer) (S : loader_stage) : Prop :=
  ∀ S', flag tr S' = true ↔ S' = S.

Definition no_phase (tr : Trainer) : Prop :=
  ∀ S, flag tr S = false.

End NonGeoDataModule.

(** ** cowc.py *)
Module COWCCountingDataModule.
Import Py torch.
Import NonGeoDataModule.

(** [__init__(self, batch_size=64, num_workers=0, **kwargs)]. *)
Definition __init__ (batch_size num_workers : option Z)
    (kwargs : gmap string value) : outcome NonGeoDataModule.t :=
  match NonGeoDataModule.__init__ "COWCCountingDataModule" (Some "COWCCounting")
          (Some (default 64 batch_size)) (Some (default 0 num_workers)) kwargs with
  | Raised e => Raised e
  | Returned self =>
      Returned (set_aug (AugmentationSequential (scalar 0.0) (scalar 255.0) ["image"]) self)
  end.

(** The call [COWCCounting(split=..., **kwargs)]. *)
Definition COWCCounting (split : string) (kwargs : gmap string value) : call :=
  Call "COWCCounting" [("split", VStr split)] kwargs.

Section setup.
Context (instance_len : call → nat) (randperm : nat → list nat).

Definition setup (stage : string) : M NonGeoDataModule.t unit :=
  self ← get;
  c ← construct (COWCCounting "train" (kwargs self));
  let train_val_dataset := Instance c in
  c ← construct (COWCCounting "test" (kwargs self));
  let test_dataset := Instance c in
  modify (set_test_dataset (Some test_dataset));;
  folds ← lift (random_split instance_len randperm train_val_dataset
                  [Z.of_nat (len instance_len train_val_dataset)
                     - Z.of_nat (len instance_len test_dataset);
                   Z.of_nat (len instance_len test_dataset)]);
  match folds with
  | [train; val] =>
      modify (set_train_dataset (Some train));;
      modify (set_val_dataset (Some val))
  | _ => raise (ValueError "wrong number of values to unpack")
  end.
End setup.

End COWCCountingDataModule.

(** ** so2sat.py *)
Module So2SatDataModule.
Import Py torch.

(** The attributes the subclass adds to those of the base class. *)
Record t := {
  base : NonGeoDataModule.t;
  band_set : string;
  unsupervised_mode : bool
}.

Definition on_base (f : NonGeoDataModule.t → NonGeoDataModule.t) (s : t) : t :=
  {| base := f (base s);
     band_set := band_set s;
     unsupervised_mode := unsupervised_mode s |}.

Definition set_unsupervised_mode (b : bool) (s : t) : t :=
  {| base := base s; band_set := band_set s; unsupervised_mode := b |}.

Definition set_band_set (b : string) (s : t) : t :=
  {| base := base s; band_set := b; unsupervised_mode := unsupervised_mode s |}.

(** Class attributes; the literals are kept as the decimals written in the
    source. *)
Definition band_means : list Q :=
  [ 0.12375696117681859;
    0.1092774636368323;
    0.1010855203267882;
    0.1142398616114001;
    0.1592656692023089;
    0.18147236008771792;
    0.1745740312291377;
    0.19501607349635292;
    0.15428468872076637;
    0.10905050699570007 ]%Q.

Definition band_stds : list Q :=
  [ 0.03958795985905458;
    0.047778262752410296;
    0.06636616706371974;
    0.06358874912497474;
    0.07744387147984592;
    0.09101635085921553;
    0.09218466562387101;
    0.10164581233948201;
    0.09991773043519253;
    0.08780632509122865 ]%Q.

(** this reorders the bands to put S2 RGB first, then remainder of S2 *)
Definition reindex_to_rgb_first : list nat := [2; 1; 0; 3; 4; 5; 6; 7; 8; 9]%nat.

(** The pipeline assigned to [self.aug] by [__init__]. *)
Definition normalize_aug : Module :=
  AugmentationSequential (vector band_means) (vector band_stds) ["image"].

(** [__init__(self, batch_size=64, num_workers=0, band_set="rgb",
    unsupervised_mode=False, **kwargs)].  The base initialiser is called
    without arguments. *)
Definition __init__ (batch_size num_workers : option Z) (band_set : option string)
    (unsupervised_mode : option bool) (kwargs : gmap string value) : outcome t :=
  match NonGeoDataModule.__init__ "So2SatDataModule" None None None ∅ with
  | Raised e => Raised e
  | Returned self =>
      Returned
        {| base :=
             NonGeoDataModule.set_aug normalize_aug
               (NonGeoDataModule.set_loading
                  (default 64 batch_size) (default 0 num_workers) kwargs self);
           band_set := default "rgb" band_set;
           unsupervised_mode := default false unsupervised_mode |}
  end.

Section setup.
(** [So2Sat.BAND_SETS], the dataset class's table of named band
    catalogs, is declared outside the sources. *)
Context (BAND_SETS : gmap string (list string)).

Definition So2Sat (split : string) (bands : list string)
    (kwargs : gmap string value) : call :=
  Call "So2Sat" [("split", VStr split); ("bands", VStrs bands)] kwargs.

Definition setup (stage : option string) : M t unit :=
  self ← get;
  match BAND_SETS !! "s2" with
  | None => raise (KeyError "s2")
  | Some bands =>
      c ← construct (So2Sat "train" bands (NonGeoDataModule.kwargs (base self)));
      modify (on_base (NonGeoDataModule.set_train_dataset (Some (Instance c))));;
      c ← construct (So2Sat "validation" bands (NonGeoDataModule.kwargs (base self)));
      modify (on_base (NonGeoDataModule.set_val_dataset (Some (Instance c))));;
      c ← construct (So2Sat "test" bands (NonGeoDataModule.kwargs (base self)));
      modify (on_base (NonGeoDataModule.set_test_dataset (Some (Instance c))))
  end.
End setup.

(** A method the subclass inherits runs on the same object: it sees and
    assigns the base attributes and leaves the subclass's own alone. *)
Definition inherited {A} (m : M NonGeoDataModule.t A) : M t A :=
  λ s, match m (base s) with
       | (r, b, l) => (r, on_base (λ _, b) s, l)
       end.

End So2SatDataModule.

(** ** Sample instances, used to run the methods on concrete inputs *)
Module Samples.
Import Py torch.

(** [NonGeoDataModule(MyDataset, root="data")], class name and all. *)
Definition plain : NonGeoDataModule.t :=
  {| NonGeoDataModule.class_name := "NonGeoDataModule";
     NonGeoDataModule.dataset_class := "MyDataset";
     NonGeoDataModule.batch_size := 1;
     NonGeoDataModule.num_workers := 0;
     NonGeoDataModule.kwargs := {[ "root" := VStr "data" ]};
     NonGeoDataModule.train_dataset := None;
     NonGeoDataModule.val_dataset := None;
     NonGeoDataModule.test_dataset := None;
     NonGeoDataModule.predict_dataset := None;
     NonGeoDataModule.train_batch_size := None;
     NonGeoDataModule.val_batch_size := None;
     NonGeoDataModule.test_batch_size := None;
     NonGeoDataModule.predict_batch_size := None;
     NonGeoDataModule.aug :=
       AugmentationSequential NonGeoDataModule.mean NonGeoDataModule.std ["image"];
     NonGeoDataModule.train_aug := None;
     NonGeoDataModule.val_aug := None;
     NonGeoDataModule.test_aug := None;
     NonGeoDataModule.predict_aug := None;
     NonGeoDataModule.trainer := None |}.

(** The same module once a subclass has loaded a validation dataset, chosen
    a validation batch size of 8 and a training pipeline, and a trainer in its
    validation phase is attached. *)
Definition validating_module : NonGeoDataModule.t :=
  {| NonGeoDataModule.class_name := "NonGeoDataModule";
     NonGeoDataModule.dataset_class := "MyDataset";
     NonGeoDataModule.batch_size := 1;
     NonGeoDataModule.num_workers := 0;
     NonGeoDataModule.kwargs := {[ "root" := VStr "data" ]};
     NonGeoDataModule.train_dataset := None;
     NonGeoDataModule.val_dataset :=
       Some (Instance (Call "MyDataset" [("split", VStr "val")] {[ "root" := VStr "data" ]}));
     NonGeoDataModule.test_dataset := None;
     NonGeoDataModule.predict_dataset := None;
     NonGeoDataModule.train_batch_size := None;
     NonGeoDataModule.val_batch_size := Some 8;
     NonGeoDataModule.test_batch_size := None;
     NonGeoDataModule.predict_batch_size := None;
     NonGeoDataModule.aug :=
       AugmentationSequential NonGeoDataModule.mean NonGeoDataModule.std ["image"];
     NonGeoDataModule.train_aug := Some (UserModule 1);
     NonGeoDataModule.val_aug := None;
     NonGeoDataModule.test_aug := Some (UserModule 2);
     NonGeoDataModule.predict_aug := None;
     NonGeoDataModule.trainer :=
       Some {| training := false; validating := true;
               testing := false; predicting := false |} |}.

(** A dataset class whose "train" split has [n] samples and whose other
    splits have [k]. *)
Definition split_len (n k : nat) (c : call) : nat :=
  match keywords c with
  | (_, VStr s) :: _ => if String.eqb s "train" then n else k
  | _ => 0%nat
  end.

(** Calling a module on a batch, observed: the batch is the list of the
    modules applied to it, latest first. *)
Definition tag (m : Module) (batch : list Module) : list Module := m :: batch.

(** A generator whose draw is the reversed index range. *)
Definition reversed (n : nat) : list nat := reverse (seq 0 n).

(** The declared band table of a dataset class with ten Sentinel-2 bands. *)
Definition band_table : gmap string (list string) :=
  {[ "s2" := ["S2_B02"; "S2_B03"; "S2_B04"; "S2_B05"; "S2_B06";
              "S2_B07"; "S2_B08"; "S2_B8A"; "S2_B11"; "S2_B12"] ]}.

(** Dataset instances can be plotted, subsets cannot; a figure is the
    dataset drawn together with the arguments passed on. *)
Definition plottable (d : Dataset) : bool :=
  match d with Instance _ => true | Subset _ _ => false end.
Definition draw (d : Dataset) (args : list string) : Dataset * list string := (d, args).

(** A module in an unusual state: a train dataset loaded, a train batch
    size override of 0 next to a global batch size of 4, and a trainer with
    its training and validating flags up at once. *)
Definition unusual : NonGeoDataModule.t :=
  {| NonGeoDataModule.class_name := "NonGeoDataModule";
     NonGeoDataModule.dataset_class := "MyDataset";
     NonGeoDataModule.batch_size := 4;
     NonGeoDataModule.num_workers := 0;
     NonGeoDataModule.kwargs := {[ "root" := VStr "data" ]};
     NonGeoDataModule.train_dataset :=
       Some (Instance (Call "MyDataset" [("split", VStr "train")] {[ "root" := VStr "data" ]}));
     NonGeoDataModule.val_dataset := None;
     NonGeoDataModule.test_dataset := None;
     NonGeoDataModule.predict_dataset := None;
     NonGeoDataModule.train_batch_size := Some 0;
     NonGeoDataModule.val_batch_size := None;
     NonGeoDataModule.test_batch_size := None;
     NonGeoDataModule.predict_batch_size := None;
     NonGeoDataModule.aug :=
       AugmentationSequential NonGeoDataModule.mean NonGeoDataModule.std ["image"];
     NonGeoDataModule.train_aug := Some (UserModule 1);
     NonGeoDataModule.val_aug := Some (UserModule 2);
     NonGeoDataModule.test_aug := None;
     NonGeoDataModule.predict_aug := None;
     NonGeoDataModule.trainer :=
       Some {| training := true; validating := true;
               testing := false; predicting := false |} |}.

(** A So2Sat datamodule holding [band_set = "s2"] and the pipeline
    [__init__] assigns. *)
Definition so2sat : So2SatDataModule.t :=
  {| So2SatDataModule.base :=
       NonGeoDataModule.set_aug So2SatDataModule.normalize_aug plain;
     So2SatDataModule.band_set := "s2";
     So2SatDataModule.unsupervised_mode := false |}.

End Samples.

(** * Properties *)

(** ** The monad computes *)
Section monad_facts.
Import Py.
Context {St : Type}.

Lemma bind_returned {A B} (m : M St A) (k : A → M St B) s a s' l :
  m s = (Returned a, s', l) →
  (m ≫= k) s = ((k a s').1.1, (k a s').1.2, l ++ (k a s').2).
Proof.
  intros Hm. unfold mbind, M_bind. rewrite Hm.
  destruct (k a s') as [[r s''] l']. reflexivity.
Qed.

Lemma bind_raised {A B} (m : M St A) (k : A → M St B) s e s' l :
  m s = (Raised e, s', l) → (m ≫= k) s = (Raised e, s', l).
Proof. intros Hm. unfold mbind, M_bind. now rewrite Hm. Qed.

End monad_facts.

(** Unfolds the monad's operations so that a method body runs on its state. *)
Ltac py_run :=
  cbv [mbind Py.M_bind mret Py.M_ret Py.get Py.modify Py.raise Py.lift
       Py.construct Py.local Py.result Py.final Py.calls].

(** ** geo.py *)
Section NonGeoDataModule_facts.
Import Py torch NonGeoDataModule.

(** The exception a loader raises when its dataset reference is unset. *)
Lemma dataloader_unset (S : loader_stage) (self : t) :
  dataset_ref S self = None →
  dataloader S self =
    (Raised (MisconfigurationException
               (class_name self +:+ ".setup does not define a '" +:+ attr_name S +:+ "'")),
     self, []).
Proof.
  destruct S; cbn [dataset_ref batch_size_override]; intros H;
    unfold dataloader, train_dataloader, val_dataloader, test_dataloader,
      predict_dataloader; py_run; rewrite H; reflexivity.
Qed.

(** The loader built when the dataset reference is set. *)
Lemma dataloader_set (S : loader_stage) (self : t) (ds : Dataset) :
  dataset_ref S self = Some ds →
  dataloader S self =
    (Returned {| torch.dataset := ds;
                 torch.batch_size := or (batch_size_override S self) (batch_size self);
                 torch.shuffle := match S with Train => true | _ => false end;
                 torch.num_workers := num_workers self |},
     self, []).
Proof.
  destruct S; cbn [dataset_ref batch_size_override]; intros H;
    unfold dataloader, train_dataloader, val_dataloader, test_dataloader,
      predict_dataloader; py_run; rewrite H; reflexivity.
Qed.






(** An override of 0 is replaced by the global batch size. *)
Example batch_size_override_zero :
  or (Some 0) 4 = 4.
Proof. reflexivity. Qed.

Lemma setup_fit (self : t) :
  setup "fit" self =
    (Returned tt,
     set_train_dataset (Some (Instance (constructed self "train"))) self,
     [constructed self "train"]).
Proof. reflexivity. Qed.

Lemma setup_validate (self : t) :
  setup "validate" self =
    (Returned tt,
     set_val_dataset (Some (Instance (constructed self "val"))) self,
     [constructed self "val"]).
Proof. reflexivity. Qed.

Lemma setup_test (self : t) :
  setup "test" self =
    (Returned tt,
     set_test_dataset (Some (Instance (constructed self "test"))) self,
     [constructed self "test"]).
Proof. reflexivity. Qed.

Lemma setup_predict (self : t) :
  setup "predict" self = (Returned tt, self, []).
Proof. reflexivity. Qed.

(** Running [setup] and then asking for a loader. *)
Lemma setup_then {A} (stage : string) (m : M t A) (self self' : t) l :
  setup stage self = (Returned tt, self', l) →
  result (setup stage ;; m) self = result m self'.
Proof.
  intros H. unfold result. rewrite (bind_returned _ _ _ _ _ _ H). reflexivity.
Qed.




Section batch_transfer_facts.
Context {Batch : Type} (forward : Module → Batch → Batch).

(** With a trainer attached, the pipeline is chosen by the first phase flag
    that is up; with none up, the local [aug] is read unassigned. *)
Lemma on_after_batch_transfer_attached (self : t) (tr : Trainer) batch idx :
  trainer self = Some tr →
  on_after_batch_transfer forward batch idx self =
    if training tr then (Returned (forward (default (aug self) (train_aug self)) batch), self, [])
    else if validating tr then (Returned (forward (default (aug self) (val_aug self)) batch), self, [])
    else if testing tr then (Returned (forward (default (aug self) (test_aug self)) batch), self, [])
    else if predicting tr then (Returned (forward (default (aug self) (predict_aug self)) batch), self, [])
    else (Raised (UnboundLocalError "aug"), self, []).
Proof.
  intros Htr. unfold on_after_batch_transfer. py_run. rewrite Htr.
  destruct (training tr), (validating tr), (testing tr), (predicting tr);
    cbn; unfold or;
    repeat match goal with |- context [match ?o with Some _ => _ | None => _ end] =>
      destruct o end; reflexivity.
Qed.

Lemma on_after_batch_transfer_detached (self : t) batch idx :
  trainer self = None →
  on_after_batch_transfer forward batch idx self = (Returned batch, self, []).
Proof. intros Htr. unfold on_after_batch_transfer. py_run. now rewrite Htr. Qed.


(** C10: the call returns exactly when no trainer is attached or the
    attached trainer has one of its four phase flags up.  Without a trainer
    the batch comes back unchanged; with a trainer whose four flags are all
    down, the local [aug] is read before any assignment and the call raises
    UnboundLocalError. *)
Theorem on_after_batch_transfer_total_iff (self : t) (batch : Batch) (idx : Z) :
  (returns (result (on_after_batch_transfer forward batch idx) self) = true
   ↔ trainer self = None
     ∨ ∃ tr S, trainer self = Some tr ∧ flag tr S = true)
  ∧ (trainer self = None →
     on_after_batch_transfer forward batch idx self = (Returned batch, self, []))
  ∧ (∀ tr, trainer self = Some tr → no_phase tr →
     result (on_after_batch_transfer forward batch idx) self
       = Raised (UnboundLocalError "aug")).
Proof.
  split; [|split].
  - unfold result. destruct (trainer self) as [tr|] eqn:Htr.
    + rewrite (on_after_batch_transfer_attached self tr batch idx Htr). split.
      * intros Hret. right. exists tr.
        destruct (training tr) eqn:E1; [exists Train; auto|].
        destruct (validating tr) eqn:E2; [exists Val; auto|].
        destruct (testing tr) eqn:E3; [exists Test; auto|].
        destruct (predicting tr) eqn:E4; [exists Predict; auto|].
        discriminate Hret.
      * intros [Hnone | (tr' & S & [= <-] & Hflag)]; [discriminate Hnone|].
        destruct S; cbn in Hflag;
          destruct (training tr), (validating tr), (testing tr), (predicting tr);
          try discriminate Hflag; reflexivity.
    + rewrite (on_after_batch_transfer_detached self batch idx Htr). cbn. tauto.
  - apply on_after_batch_transfer_detached.
  - intros tr Htr Hno. unfold result.
    rewrite (on_after_batch_transfer_attached self tr batch idx Htr).
    pose proof (Hno Train) as H1. pose proof (Hno Val) as H2.
    pose proof (Hno Test) as H3. pose proof (Hno Predict) as H4.
    cbn in H1, H2, H3, H4. now rewrite H1, H2, H3, H4.
Qed.

End batch_transfer_facts.


End NonGeoDataModule_facts.

(** ** Slices and random splits *)
Section split_facts.
Import Py torch.

Lemma slice_in_range {A} (l : list A) (a b : nat) :
  (a ≤ b)%nat → (b ≤ length l)%nat →
  slice l (Z.of_nat a) (Z.of_nat b) = take (b - a) (drop a l).
Proof.
  intros Hab Hbl. unfold slice, clamp.
  destruct (Z.ltb_spec (Z.of_nat a) 0); [lia|].
  destruct (Z.ltb_spec (Z.of_nat b) 0); [lia|].
  rewrite !Z.min_l by lia.
  f_equal; [|f_equal]; lia.
Qed.

Context (instance_len : call → nat) (randperm : nat → list nat).

(** Two non-negative lengths that add up to the dataset's length: the
    folds are the first [a] drawn indices and the remaining ones. *)
Lemma random_split_two (ds : Dataset) (a b : nat) :
  (a + b)%nat = len instance_len ds →
  length (randperm (a + b)%nat) = (a + b)%nat →
  random_split instance_len randperm ds [Z.of_nat a; Z.of_nat b] =
    Returned [Subset ds (take a (randperm (a + b)%nat));
              Subset ds (drop a (randperm (a + b)%nat))].
Proof.
  intros Hlen Hp. unfold random_split. cbn [foldr].
  rewrite bool_decide_eq_true_2 by lia.
  replace (Z.to_nat (Z.of_nat a + (Z.of_nat b + 0))) with (a + b)%nat by lia.
  cbn [accumulate accumulate_from zip_with].
  replace (0 + Z.of_nat a - Z.of_nat a) with (Z.of_nat 0) by lia.
  replace (0 + Z.of_nat a + Z.of_nat b - Z.of_nat b) with (Z.of_nat a) by lia.
  replace (0 + Z.of_nat a + Z.of_nat b) with (Z.of_nat (a + b)) by lia.
  replace (0 + Z.of_nat a) with (Z.of_nat a) by lia.
  rewrite !slice_in_range by lia.
  rewrite drop_0, Nat.sub_0_r.
  replace (a + b - a)%nat with (length (drop a (randperm (a + b)%nat))).
  - now rewrite firstn_all.
  - rewrite length_drop. lia.
Qed.

End split_facts.

(** ** cowc.py *)
Section COWCCountingDataModule_facts.
Import Py torch NonGeoDataModule COWCCountingDataModule.
Context (instance_len : call → nat) (randperm : nat → list nat).


End COWCCountingDataModule_facts.


(** The split on a concrete dataset: five "train" samples, two "test"
    samples, indices drawn in reverse order. *)
Example cowc_setup_five_two :
  Py.final (COWCCountingDataModule.setup (Samples.split_len 5 2) Samples.reversed "fit")
    Samples.plain
  = NonGeoDataModule.set_val_dataset
      (Some (torch.Subset
               (torch.Instance (COWCCountingDataModule.COWCCounting "train"
                                  {[ "root" := Py.VStr "data" ]}))
               [1; 0]%nat))
      (NonGeoDataModule.set_train_dataset
         (Some (torch.Subset
                  (torch.Instance (COWCCountingDataModule.COWCCounting "train"
                                     {[ "root" := Py.VStr "data" ]}))
                  [4; 3; 2]%nat))
         (NonGeoDataModule.set_test_dataset
            (Some (torch.Instance (COWCCountingDataModule.COWCCounting "test"
                                     {[ "root" := Py.VStr "data" ]})))
            Samples.plain)).
Proof. reflexivity. Qed.

(** ** so2sat.py *)
Section So2SatDataModule_facts.
Import Py torch So2SatDataModule.
Context (BAND_SETS : gmap string (list string)).

(** [setup] when the band table declares an "s2" catalog. *)
Lemma so2sat_setup_run (stage : option string) (self : t) (bands : list string) :
  BAND_SETS !! "s2" = Some bands →
  setup BAND_SETS stage self =
    (Returned tt,
     on_base
       (λ b,
          NonGeoDataModule.set_test_dataset
            (Some (Instance (So2Sat "test" bands (NonGeoDataModule.kwargs (base self)))))
          (NonGeoDataModule.set_val_dataset
             (Some (Instance (So2Sat "validation" bands (NonGeoDataModule.kwargs (base self)))))
             (NonGeoDataModule.set_train_dataset
                (Some (Instance (So2Sat "train" bands (NonGeoDataModule.kwargs (base self)))))
                b)))
       self,
     [So2Sat "train" bands (NonGeoDataModule.kwargs (base self));
      So2Sat "validation" bands (NonGeoDataModule.kwargs (base self));
      So2Sat "test" bands (NonGeoDataModule.kwargs (base self))]).
Proof. intros H. unfold setup. py_run. rewrite H. reflexivity. Qed.

(** [setup] when it does not. *)
Lemma so2sat_setup_no_catalog (stage : option string) (self : t) :
  BAND_SETS !! "s2" = None →
  setup BAND_SETS stage self = (Raised (KeyError "s2"), self, []).
Proof. intros H. unfold setup. py_run. rewrite H. reflexivity. Qed.



End So2SatDataModule_facts.


(** As written, [__init__] cannot complete: the base initialiser is called
    without its [dataset_class] argument. *)
Lemma so2sat_init_raises batch_size num_workers band_set unsupervised_mode kwargs :
  So2SatDataModule.__init__ batch_size num_workers band_set unsupervised_mode kwargs
  = Py.Raised (Py.TypeError
      "__init__() missing 1 required positional argument: 'dataset_class'").
Proof. reflexivity. Qed.

(** * Further properties of the datamodules *)

(** ** geo.py: construction, preparation, setup *)
Section NonGeoDataModule_lifecycle.
Import Py torch NonGeoDataModule.

Lemma prepare_data_run (self : t) :
  prepare_data self =
    if truthy (default (VBool false) (kwargs self !! "download"))
    then (Returned tt, self, [Call (dataset_class self) [] (kwargs self)])
    else (Returned tt, self, []).
Proof.
  unfold prepare_data. py_run.
  destruct (truthy (default (VBool false) (kwargs self !! "download"))); reflexivity.
Qed.


(** [__init__] fails without a dataset class.  With one it returns an
    instance that has no dataset yet: each of its four loader requests raises
    the configuration error, naming the instance's class and the missing
    attribute. *)
Theorem init_then_every_loader_raises
    (cls dc : string) (bs nw : option Z) (kw : gmap string value) :
  returns (__init__ cls None bs nw kw) = false
  ∧ ∃ self, __init__ cls (Some dc) bs nw kw = Returned self
      ∧ ∀ S, result (dataloader S) self =
               Raised (MisconfigurationException
                         (cls +:+ ".setup does not define a '" +:+ attr_name S +:+ "'")).
Proof.
  split; [reflexivity|]. eexists; split; [reflexivity|].
  intros S. unfold result. rewrite dataloader_unset; [reflexivity|].
  destruct S; reflexivity.
Qed.

(** The three ways [setup] can go, by the stage token. *)
Lemma setup_cases (stage : string) (self : t) :
  (stage = "fit" ∧ setup stage self = setup "fit" self)
  ∨ (stage = "validate" ∧ setup stage self = setup "validate" self)
  ∨ (stage = "test" ∧ setup stage self = setup "test" self)
  ∨ (stage ≠ "fit" ∧ stage ≠ "validate" ∧ stage ≠ "test"
     ∧ setup stage self = (Returned tt, self, [])).
Proof.
  destruct (decide (stage = "fit")) as [->|Hf]; [left; done|].
  destruct (decide (stage = "validate")) as [->|Hv]; [right; left; done|].
  destruct (decide (stage = "test")) as [->|Ht]; [right; right; left; done|].
  right; right; right. repeat split; try done.
  unfold setup, in_. py_run.
  rewrite !bool_decide_eq_false_2; [reflexivity| | |];
    rewrite ?elem_of_cons, ?elem_of_nil; tauto.
Qed.

(** [setup] called with a token other than "fit", "validate" and "test"
    (for instance "predict", or "Fit") returns without constructing or
    assigning anything. *)
Theorem setup_unknown_stage_does_nothing (stage : string) (self : t) :
  stage ≠ "fit" → stage ≠ "validate" → stage ≠ "test" →
  setup stage self = (Returned tt, self, []).
Proof.
  intros Hf Hv Ht.
  destruct (setup_cases stage self) as [[-> _]|[[-> _]|[[-> _]|(_ & _ & _ & H)]]];
    done.
Qed.

Lemma setup_unknown_stage_does_nothing_witness :
  setup "Fit" Samples.plain = (Returned tt, Samples.plain, []).
Proof.
  apply (setup_unknown_stage_does_nothing "Fit" Samples.plain); discriminate.
Defined.









End NonGeoDataModule_lifecycle.

(** ** geo.py: batch augmentation and plotting *)
Section NonGeoDataModule_hooks.
Import Py torch NonGeoDataModule.

Section hooks.
Context {Batch : Type} (forward : Module → Batch → Batch).

(** [on_after_batch_transfer] only reads the datamodule: whether it returns
    or raises, no attribute is assigned and no dataset is constructed; and
    the [dataloader_idx] argument has no influence on what it does. *)
Theorem on_after_batch_transfer_reads_only
    (self : t) (batch : Batch) (idx idx' : Z) :
  final (on_after_batch_transfer forward batch idx) self = self
  ∧ calls (on_after_batch_transfer forward batch idx) self = []
  ∧ on_after_batch_transfer forward batch idx self
      = on_after_batch_transfer forward batch idx' self.
Proof.
  unfold final, calls. destruct (trainer self) as [tr|] eqn:Htr.
  - rewrite !(on_after_batch_transfer_attached forward self tr batch _ Htr).
    destruct (training tr), (validating tr), (testing tr), (predicting tr);
      repeat split.
  - rewrite !(on_after_batch_transfer_detached forward self batch _ Htr).
    repeat split.
Qed.


End hooks.


Section plot_facts.
Context {Args Figure : Type}
  (has_plot : Dataset → bool) (plot_method : Dataset → Args → Figure).

Lemma plot_run (args : Args) (self : t) :
  plot has_plot plot_method args self =
    (Returned match val_dataset self with
              | Some ds => if has_plot ds then Some (plot_method ds args) else None
              | None => None
              end,
     self, []).
Proof.
  unfold plot. py_run. destruct (val_dataset self) as [ds|]; [|reflexivity].
  destruct (has_plot ds); reflexivity.
Qed.



End plot_facts.

End NonGeoDataModule_hooks.

(** ** cowc.py: from construction to loaders *)
Section COWCCountingDataModule_lifecycle.
Import Py torch NonGeoDataModule COWCCountingDataModule.
Context (instance_len : call → nat) (randperm : nat → list nat).

Lemma then_result {St A B} (m : M St A) (m' : M St B) s a s' l :
  m s = (Returned a, s', l) → result (m ;; m') s = result m' s'.
Proof.
  intros H. unfold result. rewrite (bind_returned _ _ _ _ _ _ H). reflexivity.
Qed.

(** What [setup] leaves behind when the draw has as many indices as the
    "train" split and the "test" split is not the longer one. *)
Lemma cowc_setup_run (stage : string) (self : t) :
  length (randperm (instance_len (COWCCounting "train" (kwargs self))))
    = instance_len (COWCCounting "train" (kwargs self)) →
  (instance_len (COWCCounting "test" (kwargs self))
     ≤ instance_len (COWCCounting "train" (kwargs self)))%nat →
  setup instance_len randperm stage self =
    (Returned tt,
     set_val_dataset
       (Some (Subset (Instance (COWCCounting "train" (kwargs self)))
                (drop (instance_len (COWCCounting "train" (kwargs self))
                         - instance_len (COWCCounting "test" (kwargs self)))
                   (randperm (instance_len (COWCCounting "train" (kwargs self)))))))
       (set_train_dataset
          (Some (Subset (Instance (COWCCounting "train" (kwargs self)))
                   (take (instance_len (COWCCounting "train" (kwargs self))
                            - instance_len (COWCCounting "test" (kwargs self)))
                      (randperm (instance_len (COWCCounting "train" (kwargs self)))))))
          (set_test_dataset (Some (Instance (COWCCounting "test" (kwargs self)))) self)),
     [COWCCounting "train" (kwargs self); COWCCounting "test" (kwargs self)]).
Proof.
  set (n := instance_len (COWCCounting "train" (kwargs self))).
  set (k := instance_len (COWCCounting "test" (kwargs self))).
  intros Hlen Hle. unfold setup. py_run. cbn [len]. fold n k.
  replace (Z.of_nat n - Z.of_nat k) with (Z.of_nat (n - k)) by lia.
  rewrite (random_split_two instance_len randperm _ (n - k) k);
    cbn [len]; fold n; replace (n - k + k)%nat with n by lia; done.
Qed.


End COWCCountingDataModule_lifecycle.


(** ** so2sat.py: what setup depends on, and the loaders after it *)
Section So2SatDataModule_lifecycle.
Import Py torch So2SatDataModule.
Context (BAND_SETS : gmap string (list string)).

(** Neither the [band_set] the datamodule was given nor the stage token
    passed to [setup] has any influence on [setup]: the outcome, the
    constructor calls (always with the "s2" catalog) and the base attributes
    afterwards are the same for any two values of each. *)
Theorem so2sat_setup_ignores_band_set_and_stage
    (stage stage' : option string) (b : NonGeoDataModule.t)
    (band_set band_set' : string) (flag : bool) :
  let dm := {| base := b; band_set := band_set; unsupervised_mode := flag |} in
  let dm' := {| base := b; band_set := band_set'; unsupervised_mode := flag |} in
  result (setup BAND_SETS stage) dm = result (setup BAND_SETS stage') dm'
  ∧ calls (setup BAND_SETS stage) dm = calls (setup BAND_SETS stage') dm'
  ∧ base (final (setup BAND_SETS stage) dm) = base (final (setup BAND_SETS stage') dm')
  ∧ So2SatDataModule.band_set (final (setup BAND_SETS stage) dm) = band_set
  ∧ So2SatDataModule.band_set (final (setup BAND_SETS stage') dm') = band_set'.
Proof.
  intros dm dm'. unfold result, final, calls.
  destruct (BAND_SETS !! "s2") as [bands|] eqn:Hs2.
  - rewrite (so2sat_setup_run BAND_SETS stage dm bands Hs2),
      (so2sat_setup_run BAND_SETS stage' dm' bands Hs2). cbn. repeat split.
  - rewrite (so2sat_setup_no_catalog BAND_SETS stage dm Hs2),
      (so2sat_setup_no_catalog BAND_SETS stage' dm' Hs2). cbn. repeat split.
Qed.

Lemma inherited_result {A} (m : M NonGeoDataModule.t A) (s : t) :
  result (inherited m) s = result m (base s).
Proof.
  unfold result, inherited. destruct (m (base s)) as [[r b] l]. reflexivity.
Qed.


End So2SatDataModule_lifecycle.

